(** * Fetch_JIRA_Issues: time spent in each workflow status

    A shallow embedding of [src/Fetch_JIRA_Issues.py] and the properties of
    its status-duration calculation and of its two fetch functions.

    Modelling conventions.
    - A timezone-aware [datetime] is the UTC instant it denotes, counted in
      microseconds (the resolution of Python's [datetime]); a [timedelta] is
      a signed number of microseconds.  Subtraction of aware datetimes is
      subtraction of instants.
    - [timedelta.total_seconds() / 3600] yields a Python float.  Hours are
      modelled as exact rationals ([Qc]); rounding of binary floating point
      is outside the model.  Statements that compare a sum of hours with an
      independent quantity are therefore made on elapsed time, in whole
      microseconds, which the source has exactly, or for intervals of whole
      hours, on which the float operations are exact.
    - The changelog has the documented shape: every entry has its
      [created] and [items], every change its [field].  The [KeyError] of
      a missing key is outside the model.
    - [datetime.strptime] is library code: it is a parameter of the
      development, returning [None] where Python raises [ValueError].
    - A Python [dict] with string keys is a [gmap string _].
    - The wall clock, the standard output and the HTTP peer form the
      [world] that the functions of the module run in. *)

From Stdlib Require Import ZArith QArith Qcanon Qcabs String List Bool Lia.
From stdpp Require Import base option numbers strings list gmap fin_maps.

Local Open Scope Z_scope.

(** ** Python values *)

Definition datetime := Z.
Definition timedelta := Z.
Bind Scope Z_scope with datetime timedelta.

(** [timedelta.total_seconds()]: microseconds over 10^6. *)
Definition total_seconds (td : timedelta) : Qc :=
  (Qc_of_Z td / Qc_of_Z 1000000)%Qc.

(** The expression [(b - a).total_seconds() / 3600] of the source. *)
Definition hours_between (a b : datetime) : Qc :=
  (total_seconds (b - a)%Z / Qc_of_Z 3600)%Qc.

(** Truth value of [last_status]: [None] and the empty string are false. *)
Definition truthy (s : option string) : bool :=
  match s with
  | Some k => negb (String.eqb k "")
  | None => false
  end.

(** Truth value of a [datetime] object: always true. *)
Definition datetime_bool (t : datetime) : bool := true.

(** The classes of [requests.exceptions] that derive from
    [RequestException]; the class itself is [AnyRequestException]. *)
Inductive request_exception_class :=
| ConnectionError
| Timeout
| HTTPError
| AnyRequestException.

(** Exceptions the module can meet.  [RequestException cls msg] is an
    instance of [requests.exceptions.RequestException] (of its subclass
    [cls]) whose [str()] is [msg]. *)
Inductive exception :=
| ValueError
| KeyError (key : string)
| TypeError
| RequestException (cls : request_exception_class) (message : string).

Inductive result (A : Type) :=
| Ok (a : A)
| Raise (e : exception).
Arguments Ok {A} a.
Arguments Raise {A} e.

Definition rbind {A B} (r : result A) (k : A → result B) : result B :=
  match r with
  | Ok a => k a
  | Raise e => Raise e
  end.

Declare Scope result_scope.
Delimit Scope result_scope with result.
Notation "x <- r ;; k" := (rbind r (fun x => k))
  (at level 100, r at next level, right associativity) : result_scope.

(** A [for] loop whose body may raise. *)
Fixpoint for_each {A S} (body : S → A → result S) (l : list A) (s : S)
  : result S :=
  match l with
  | [] => Ok s
  | x :: rest => (s' <- body s x ;; for_each body rest s')%result
  end.

(** ** JSON values and HTTP responses *)

#[local] Set Warnings "-register-all".

Inductive pyjson :=
| JNull
| JBool (b : bool)
| JNumber (n : Z)
| JString (s : string)
| JArray (l : list pyjson)
| JObject (members : list (string * pyjson)).

Fixpoint assoc_get (key : string) (members : list (string * pyjson))
  : option pyjson :=
  match members with
  | [] => None
  | (k, v) :: rest =>
      match assoc_get key rest with
      | Some v' => Some v'
      | None => if String.eqb k key then Some v else None
      end
  end.

(** [value[key]] for a string [key]: a [dict] answers or raises [KeyError],
    every other JSON value raises [TypeError]. *)
Definition getitem (value : pyjson) (key : string) : result pyjson :=
  match value with
  | JObject members =>
      match assoc_get key members with
      | Some v => Ok v
      | None => Raise (KeyError key)
      end
  | _ => Raise TypeError
  end.

(** A [requests.Response], by what its two methods used here do. *)
Record Response := {
  raise_for_status : result unit;
  json : result pyjson
}.

Inductive param :=
| PStr (s : string)
| PInt (n : Z).

(** The arguments of [requests.get]. *)
Record request := {
  url : string;
  headers : list (string * string);
  params : option (list (string * param));
  auth : string * string
}.

(** ** Changelog entries, as the JSON of the tracker gives them *)

(** One element of ["items"]: [{field, fromString, toString}].  A key that
    is absent or bound to [null] reads as [None] through [dict.get]. *)
Record change := {
  field : string;
  fromString : option string;
  toString : option string
}.

(** One element of the changelog: [{created, items}]. *)
Record item := {
  created : string;
  items : list change
}.

(** ** The world of a call *)

Record world := {
  clock : datetime;
  stdout : list string;
  requests_get : request → result Response
}.

Definition IO (A : Type) := world → result A * world.

Definition io_ret {A} (a : A) : IO A := fun w => (Ok a, w).
Definition io_bind {A B} (m : IO A) (k : A → IO B) : IO B :=
  fun w =>
    match m w with
    | (Ok a, w') => k a w'
    | (Raise e, w') => (Raise e, w')
    end.
Definition io_lift {A} (r : result A) : IO A := fun w => (r, w).

Declare Scope io_scope.
Delimit Scope io_scope with io.
Notation "x <- m ;; k" := (io_bind m (fun x => k))
  (at level 100, m at next level, right associativity) : io_scope.

(** [datetime.now(tz)]: the instant the clock shows; the zone only chooses
    the offset it is displayed in. *)
Definition datetime_now : IO datetime := fun w => (Ok (clock w), w).

(** [print(line)] *)
Definition print (line : string) : IO unit :=
  fun w => (Ok tt, {| clock := clock w;
                      stdout := stdout w ++ [line];
                      requests_get := requests_get w |}).

(** [requests.get(...)]: what the peer answers.  That the request is sent
    is not recorded in the world. *)
Definition http_get (req : request) : IO Response :=
  fun w => (requests_get w req, w).

(** [try: body except requests.exceptions.RequestException as e: handler] *)
Definition is_request_exception (e : exception) : bool :=
  match e with
  | RequestException _ _ => true
  | _ => false
  end.

Definition try_except {A} (body : IO A) (handler : exception → IO A) : IO A :=
  fun w =>
    match body w with
    | (Raise e, w') =>
        if is_request_exception e then handler e w' else (Raise e, w')
    | returned => returned
    end.

(** [str(e)], as the handlers print it; only a [RequestException] reaches
    them. *)
Definition str_exception (e : exception) : string :=
  match e with
  | RequestException _ msg => msg
  | KeyError key => "'" +:+ key +:+ "'"
  | _ => ""
  end.

(** ** fetch_jira_issues and fetch_issue_history *)

Definition json_headers : list (string * string) :=
  [("Accept", "application/json"); ("Content-Type", "application/json")].

Definition fetch_jira_issues (jira_url project_key auth_email api_token : string)
    (jql_query : option string) : IO pyjson :=
  let endpoint := jira_url +:+ "/rest/api/3/search" in
  let headers := json_headers in
  let jql_query :=
    match jql_query with
    | None => "project = " +:+ project_key +:+ " ORDER BY created DESC"
    | Some q => q
    end in
  let params := [("jql", PStr jql_query); ("maxResults", PInt 50)] in
  let auth := (auth_email, api_token) in
  try_except
    (response <- http_get {| url := endpoint; headers := headers;
                             params := Some params; auth := auth |} ;;
     _ <- io_lift (raise_for_status response) ;;
     body <- io_lift (json response) ;;
     issues <- io_lift (getitem body "issues") ;;
     io_ret issues)%io
    (fun e =>
       (_ <- print ("Error fetching Jira issues: " +:+ str_exception e) ;;
        io_ret (JArray []))%io).

Definition fetch_issue_history (jira_url issue_key auth_email api_token : string)
  : IO pyjson :=
  let endpoint := jira_url +:+ "/rest/api/3/issue/" +:+ issue_key +:+ "/changelog" in
  let headers := json_headers in
  let auth := (auth_email, api_token) in
  try_except
    (response <- http_get {| url := endpoint; headers := headers;
                             params := None; auth := auth |} ;;
     _ <- io_lift (raise_for_status response) ;;
     body <- io_lift (json response) ;;
     changelog <- io_lift (getitem body "values") ;;
     io_ret changelog)%io
    (fun e =>
       (_ <- print ("Error fetching issue history for " +:+ issue_key +:+ ": "
                    +:+ str_exception e) ;;
        io_ret (JArray []))%io).

(** *** Transport errors

    The request that each function sends, what it means that it fails, and
    the world after one more line is printed. *)

Definition issues_request (jira_url project_key auth_email api_token : string)
    (jql_query : option string) : request :=
  {| url := jira_url +:+ "/rest/api/3/search";
     headers := json_headers;
     params :=
       Some [("jql", PStr match jql_query with
                          | None => "project = " +:+ project_key
                                    +:+ " ORDER BY created DESC"
                          | Some q => q
                          end);
             ("maxResults", PInt 50)];
     auth := (auth_email, api_token) |}.

Definition changelog_request (jira_url issue_key auth_email api_token : string)
  : request :=
  {| url := jira_url +:+ "/rest/api/3/issue/" +:+ issue_key +:+ "/changelog";
     headers := json_headers;
     params := None;
     auth := (auth_email, api_token) |}.

(** An HTTP request fails when [requests.get] raises a [RequestException]
    (network failure) or when [raise_for_status] raises one on the response
    (a status that reports a failure, a rejected authentication among
    them). *)
Definition request_fails (w : world) (req : request)
    (cls : request_exception_class) (msg : string) : Prop :=
  requests_get w req = Raise (RequestException cls msg)
  ∨ ∃ response, requests_get w req = Ok response
                ∧ raise_for_status response = Raise (RequestException cls msg).

Definition logged (w : world) (line : string) : world :=
  {| clock := clock w;
     stdout := stdout w ++ [line];
     requests_get := requests_get w |}.

(** ** calculate_time_in_status *)

Definition time_format : string := "%Y-%m-%dT%H:%M:%S.%f%z".

Record loop_state := {
  status_times : gmap string Qc;
  last_status : option string;
  last_timestamp : datetime
}.

(** [if last_status and last_timestamp:] *)
Definition may_credit (st : loop_state) : bool :=
  truthy (last_status st) && datetime_bool (last_timestamp st).

(** [status_times[last_status] = status_times.get(last_status, 0) + time_spent]
    with [time_spent = (until - last_timestamp).total_seconds() / 3600],
    under the test [may_credit]. *)
Definition credit (st : loop_state) (until : datetime) : gmap string Qc :=
  if may_credit st then
    match last_status st with
    | Some k =>
        let time_spent := hours_between (last_timestamp st) until in
        <[k := (default 0%Qc (status_times st !! k) + time_spent)%Qc]>
          (status_times st)
    | None => status_times st
    end
  else status_times st.

Section Calculator.

(** [datetime.strptime(date_string, format)] *)
Variable strptime : string → string → option datetime.

Definition parse_time (s : string) : result datetime :=
  match strptime s time_format with
  | Some t => Ok t
  | None => Raise ValueError
  end.

(** Body of the inner loop, lines 103-113.  [from_status] is bound and
    not used, as in the source. *)
Definition on_change (it : item) (st : loop_state) (ch : change)
  : result loop_state :=
  if String.eqb (field ch) "status" then
    (t <- parse_time (created it) ;;
     let from_status := fromString ch in
     let to_status := toString ch in
     Ok {| status_times := credit st t;
           last_status := to_status;
           last_timestamp := t |})%result
  else Ok st.

(** Body of the outer loop, lines 102-113. *)
Definition on_item (st : loop_state) (it : item) : result loop_state :=
  for_each (on_change it) (items it) st.

Definition calculate_time_in_status (history : list item)
    (created_date : string) : IO (gmap string Qc) :=
  (t0 <- io_lift (parse_time created_date) ;;
   st <- io_lift (for_each on_item history
                    {| status_times := ∅;
                       last_status := Some "To Do";
                       last_timestamp := t0 |}) ;;
   if may_credit st then
     (now <- datetime_now ;;
      io_ret (credit st now))
   else io_ret (status_times st))%io.

End Calculator.

(** ** The timeline a changelog describes

    The definitions below restate a run of the calculator in the terms of
    the specification: the status changes of a changelog in the order the
    two loops meet them, the transitions they parse to, and the status
    intervals between [createdAt] and [now]. *)

Definition is_status (ch : change) : bool := String.eqb (field ch) "status".

(** The status changes of a changelog, each with the [created] string of
    its entry. *)
Definition status_changes (history : list item) : list (string * change) :=
  flat_map
    (fun it => map (fun ch => (created it, ch)) (List.filter is_status (items it)))
    history.

Section Timeline.

Variable strptime : string → string → option datetime.

(** A transition: the instant of a status change and its [toValue]. *)
Definition read_change (sc : string * change)
  : option (datetime * option string) :=
  match strptime sc.1 time_format with
  | Some t => Some (t, toString sc.2)
  | None => None
  end.

Definition transitions (history : list item)
  : option (list (datetime * option string)) :=
  mapM read_change (status_changes history).

End Timeline.

(** StatusInterval of the specification: a status (undefined after a
    change without [toValue]) held from [startTime] to [endTime]. *)
Record StatusInterval := {
  status : option string;
  startTime : datetime;
  endTime : datetime
}.

(** The contiguous intervals from [start] to [now]: the running status
    [current] holds until the next transition, and the last one until [now]. *)
Fixpoint intervals (current : option string) (start : datetime)
    (trs : list (datetime * option string)) (now : datetime)
  : list StatusInterval :=
  match trs with
  | [] => [{| status := current; startTime := start; endTime := now |}]
  | (t, to) :: rest =>
      {| status := current; startTime := start; endTime := t |}
      :: intervals to t rest now
  end.

Definition duration (iv : StatusInterval) : Qc :=
  hours_between (startTime iv) (endTime iv).

Definition total_hours (ivs : list StatusInterval) : Qc :=
  foldr (fun iv acc => (duration iv + acc)%Qc) 0%Qc ivs.

Definition held (s : string) (iv : StatusInterval) : bool :=
  bool_decide (status iv = Some s).

(** Sum of the durations of all the intervals of status [s]. *)
Definition time_in (s : string) (ivs : list StatusInterval) : Qc :=
  total_hours (List.filter (held s) ivs).

(** An interval is attributed when its status is a usable key. *)
Definition attributed (iv : StatusInterval) : bool := truthy (status iv).

(** [sum(status_times.values())] *)
Definition sum_values (m : gmap string Qc) : Qc :=
  map_fold (fun _ v acc => (v + acc)%Qc) 0%Qc m.

(** Timestamps in ascending order from [start] through the transitions up
    to [now]. *)
Fixpoint ascending (start : datetime) (trs : list (datetime * option string))
    (now : datetime) : Prop :=
  match trs with
  | [] => (start ≤ now)%Z
  | (t, _) :: rest => (start ≤ t)%Z ∧ ascending t rest now
  end.

(** The changelog with every field change other than a status change
    removed, and the entries that are left without changes dropped. *)
Definition status_only (history : list item) : list item :=
  List.filter (fun it => match items it with [] => false | _ => true end)
    (map (fun it => {| created := created it;
                       items := List.filter is_status (items it) |})
       history).

(** Two changelogs that differ at most in the [fromString] of their
    changes. *)
Definition same_but_from (a b : change) : Prop :=
  field a = field b ∧ toString a = toString b.

Definition item_same_but_from (a b : item) : Prop :=
  created a = created b ∧ Forall2 same_but_from (items a) (items b).

Definition history_same_but_from (h h' : list item) : Prop :=
  Forall2 item_same_but_from h h'.

(** The two loops on the parsed transitions: what one status change does
    to the loop state, and a whole run. *)
Definition on_transition (st : loop_state) (tr : datetime * option string)
  : loop_state :=
  {| status_times := credit st tr.1;
     last_status := tr.2;
     last_timestamp := tr.1 |}.

Definition run_transitions (trs : list (datetime * option string))
    (st : loop_state) : loop_state :=
  fold_left on_transition trs st.

(** Crediting one interval, and a list of them in order. *)
Definition credit_interval (m : gmap string Qc) (iv : StatusInterval)
  : gmap string Qc :=
  credit {| status_times := m; last_status := status iv;
            last_timestamp := startTime iv |} (endTime iv).

Definition book (ivs : list StatusInterval) (m : gmap string Qc)
  : gmap string Qc :=
  fold_left credit_interval ivs m.

(** What the specification asks of a valid changelog, on its transitions:
    every status change carries a [toValue]. *)
Definition carries_toValue (trs : list (datetime * option string)) : Prop :=
  Forall (fun tr => is_Some tr.2) trs.


(** The instant at which the interval opened by a transition ends: the
    next transition, or [now] after the last one. *)
Definition next_instant (later : list (datetime * option string))
    (now : datetime) : datetime :=
  match later with
  | [] => now
  | (t, _) :: _ => t
  end.


(** ** Sample inputs *)

Definition hour : Z := 3600000000.

(** Six timestamps in the format of the tracker and the instants they
    denote, counted from 2024-01-01T00:00:00+0000. *)
Definition sample_times : list (string * datetime) :=
  [("2023-12-31T00:00:00.000000+0000", -24 * hour);
   ("2024-01-01T00:00:00.000000+0000", 0);
   ("2024-01-01T04:00:00.000000+0000", 4 * hour);
   ("2024-01-01T10:00:00.000000+0000", 10 * hour);
   ("2024-01-01T16:00:00.000000+0000", 16 * hour);
   ("2024-01-02T00:00:00.000000+0000", 24 * hour)].

(** [strptime] on the six sample timestamps. *)
Definition sample_strptime (date_string format : string) : option datetime :=
  if String.eqb format time_format then
    match List.find (fun e => String.eqb e.1 date_string) sample_times with
    | Some e => Some e.2
    | None => None
    end
  else None.

Definition status_change (from to : option string) : change :=
  {| field := "status"; fromString := from; toString := to |}.

Definition assignee_change : change :=
  {| field := "assignee"; fromString := Some "alice"; toString := Some "bob" |}.

(** A world whose clock shows [now] and whose HTTP peer is unreachable. *)
Definition offline_world (now : datetime) : world :=
  {| clock := now;
     stdout := [];
     requests_get :=
       fun _ => Raise (RequestException ConnectionError "Connection refused") |}.

(** A world whose clock shows [now], with lines already printed, and whose
    HTTP peer answers every request with 401 Unauthorized. *)
Definition rejecting_world (now : datetime) : world :=
  {| clock := now;
     stdout := ["Fetched issues:"];
     requests_get :=
       fun _ =>
         Ok {| raise_for_status :=
                 Raise (RequestException HTTPError "401 Client Error: Unauthorized");
               json := Ok (JObject [("errorMessages", JArray [])]) |} |}.

Definition created_2024 : string := "2024-01-01T00:00:00.000000+0000".

(** The single transition of the specification: In Progress at 10:00. *)
Definition single_transition : list item :=
  [ {| created := "2024-01-01T10:00:00.000000+0000";
       items := [status_change (Some "To Do") (Some "In Progress")] |} ].

(** To Do -> In Progress -> To Do -> Done at 04:00, 10:00 and 16:00. *)
Definition revisit_history : list item :=
  [ {| created := "2024-01-01T04:00:00.000000+0000";
       items := [status_change (Some "To Do") (Some "In Progress")] |};
    {| created := "2024-01-01T10:00:00.000000+0000";
       items := [status_change (Some "In Progress") (Some "To Do")] |};
    {| created := "2024-01-01T16:00:00.000000+0000";
       items := [status_change (Some "To Do") (Some "Done")] |} ].


(** The empty status name entered at 04:00 and again at 16:00. *)
Definition empty_name_revisit : list item :=
  [ {| created := "2024-01-01T04:00:00.000000+0000";
       items := [status_change (Some "To Do") (Some "")] |};
    {| created := "2024-01-01T10:00:00.000000+0000";
       items := [status_change (Some "") (Some "In Progress")] |};
    {| created := "2024-01-01T16:00:00.000000+0000";
       items := [status_change (Some "In Progress") (Some "")] |} ].

(** One status change dated the day before the issue was created. *)
Definition backdated_history : list item :=
  [ {| created := "2023-12-31T00:00:00.000000+0000";
       items := [status_change (Some "To Do") (Some "Done")] |} ].

(** One status change at 10:00 without [toString]. *)
Definition missing_to_history : list item :=
  [ {| created := "2024-01-01T10:00:00.000000+0000";
       items := [status_change (Some "To Do") None] |} ].


(** [single_transition] with an assignee change in its entry and an entry
    that only changes the assignee, whose timestamp does not parse. *)
Definition single_transition_with_assignee : list item :=
  [ {| created := "not a timestamp"; items := [assignee_change] |};
    {| created := "2024-01-01T10:00:00.000000+0000";
       items := [assignee_change;
                 status_change (Some "To Do") (Some "In Progress");
                 assignee_change] |} ].

(** [single_transition] with another [fromString]. *)
Definition single_transition_lying : list item :=
  [ {| created := "2024-01-01T10:00:00.000000+0000";
       items := [status_change (Some "Done") (Some "In Progress")] |} ].

(** ** The entry point

    The block under [if __name__ == "__main__"], lines 124-167.  What it
    does with a non-empty answer after printing its heading (the loop over
    the issues, lines 135-165) formats floats and walks untyped JSON; it is
    a parameter here. *)

Definition JIRA_URL : string := "https://your-domain.atlassian.net".
Definition PROJECT_KEY : string := "TEST".
Definition AUTH_EMAIL : string := "your-email@example.com".
Definition API_TOKEN : string := "your-api-token".

(** Truth value of what [fetch_jira_issues] returns, in [if issues:]. *)
Definition json_bool (value : pyjson) : bool :=
  match value with
  | JNull => false
  | JBool b => b
  | JNumber n => negb (n =? 0)%Z
  | JString s => negb (String.eqb s "")
  | JArray l => match l with [] => false | _ => true end
  | JObject members => match members with [] => false | _ => true end
  end.

Section EntryPoint.

(** [for issue in issues: ...], lines 135-165. *)
Variable each_issue : pyjson → IO unit.

Definition main : IO unit :=
  (issues <- fetch_jira_issues JIRA_URL PROJECT_KEY AUTH_EMAIL API_TOKEN None ;;
   if json_bool issues then
     (_ <- print "Fetched issues:" ;;
      each_issue issues)
   else print "No issues found or an error occurred.")%io.

End EntryPoint.

(** ** More views of a run *)

(** The entry holds a status change, so that its [created] is parsed. *)
Definition has_status_change (it : item) : bool :=
  existsb is_status (items it).


(** A [strptime] that reads every timestamp [d] microseconds later. *)
Definition shift_strptime (d : timedelta)
    (strptime : string → string → option datetime)
  : string → string → option datetime :=
  fun date_string format =>
    match strptime date_string format with
    | Some t => Some (t + d)
    | None => None
    end.

(** The world with its clock showing [t]. *)
Definition at_clock (w : world) (t : datetime) : world :=
  {| clock := t; stdout := stdout w; requests_get := requests_get w |}.

(** A world whose HTTP peer answers every request with status 200 and the
    JSON [body]. *)
Definition serving_world (now : datetime) (body : pyjson) : world :=
  {| clock := now;
     stdout := [];
     requests_get :=
       fun _ => Ok {| raise_for_status := Ok tt; json := Ok body |} |}.

(** [revisit_history] without its last entry, and that entry. *)
Definition revisit_prefix : list item :=
  [ {| created := "2024-01-01T04:00:00.000000+0000";
       items := [status_change (Some "To Do") (Some "In Progress")] |};
    {| created := "2024-01-01T10:00:00.000000+0000";
       items := [status_change (Some "In Progress") (Some "To Do")] |} ].

Definition done_entry : item :=
  {| created := "2024-01-01T16:00:00.000000+0000";
     items := [status_change (Some "To Do") (Some "Done")] |}.

(** [single_transition] followed by a change from In Progress to
    In Progress at 16:00. *)
Definition single_transition_repeated : list item :=
  single_transition
  ++ [ {| created := "2024-01-01T16:00:00.000000+0000";
          items := [status_change (Some "In Progress") (Some "In Progress")] |} ].

(** ** Elapsed time

    The lengths of intervals as [timedelta]s: whole microseconds, which the
    source has exactly, before [total_seconds() / 3600] turns them into
    hours. *)




(** ** Answers by status code *)

(** The [Response] that the [requests] library gives for an answer with a
    status code: its [raise_for_status] raises [HTTPError] for the codes
    from 400 to 599 and returns for every other code; its [json()] gives
    [body]. *)
Definition answered (status_code : Z) (error_text : string)
    (body : result pyjson) : Response :=
  {| raise_for_status :=
       if (400 <=? status_code) && (status_code <? 600)
       then Raise (RequestException HTTPError error_text)
       else Ok tt;
     json := body |}.

(** A world whose HTTP peer answers every request with status 300 and a
    body that lists one issue. *)
Definition multiple_choices_world (now : datetime) : world :=
  {| clock := now;
     stdout := [];
     requests_get :=
       fun _ =>
         Ok (answered 300 "300 Multiple Choices"
               (Ok (JObject [("issues", JArray [JString "TEST-1"])]))) |}.

(** * Properties *)

(** ** Hours *)

Lemma hours_between_chain a b c :
  (hours_between a b + hours_between b c)%Qc = hours_between a c.
Proof.
  unfold hours_between, total_seconds.
  replace (c - a) with ((b - a) + (c - b)) by lia.
  rewrite Z2Qc_inj_add. unfold Qcdiv. ring.
Qed.

Lemma hours_between_scale a b :
  hours_between a b
  = (Qc_of_Z (b - a) * (/ Qc_of_Z 1000000 * / Qc_of_Z 3600))%Qc.
Proof. unfold hours_between, total_seconds, Qcdiv. ring. Qed.

Lemma per_microsecond_pos : (0 < / Qc_of_Z 1000000 * / Qc_of_Z 3600)%Qc.
Proof. vm_compute. reflexivity. Qed.

Lemma hours_between_nonneg a b : (a ≤ b)%Z → (0 ≤ hours_between a b)%Qc.
Proof.
  intros Hab. rewrite hours_between_scale.
  apply Qcmult_nonneg_nonneg.
  - rewrite <- Z2Qc_inj_0, <- Z2Qc_inj_le. lia.
  - apply Qclt_le_weak, per_microsecond_pos.
Qed.

Lemma hours_between_pos a b : (a < b)%Z → (0 < hours_between a b)%Qc.
Proof.
  intros Hab. rewrite hours_between_scale.
  apply Qcmult_pos_pos.
  - rewrite <- Z2Qc_inj_0, <- Z2Qc_inj_lt. lia.
  - apply per_microsecond_pos.
Qed.

Lemma hours_between_neg a b : (b < a)%Z → (hours_between a b < 0)%Qc.
Proof.
  intros Hab.
  pose proof (hours_between_pos b a Hab) as Hpos.
  pose proof (hours_between_chain a b a) as Hc.
  assert (hours_between a a = 0%Qc) as Hz.
  { unfold hours_between, total_seconds. rewrite Z.sub_diag.
    apply Qc_is_canon. reflexivity. }
  rewrite Hz in Hc.
  apply (Qcplus_lt_mono_r _ _ (hours_between b a)).
  rewrite Hc, Qcplus_0_l. exact Hpos.
Qed.

(** ** The two loops as one run over the transitions *)

Lemma mapM_option_cons {A B} (f : A → option B) (x : A) (l : list A) :
  mapM f (x :: l)
  = match f x, mapM f l with
    | Some y, Some k => Some (y :: k)
    | _, _ => None
    end.
Proof. simpl. destruct (f x); simpl; [| reflexivity]. destruct (mapM f l); reflexivity. Qed.

Lemma mapM_option_app {A B} (f : A → option B) (l1 l2 : list A) :
  mapM f (l1 ++ l2)
  = match mapM f l1, mapM f l2 with
    | Some k1, Some k2 => Some (k1 ++ k2)
    | _, _ => None
    end.
Proof.
  induction l1 as [|x l1 IH].
  - simpl. destruct (mapM f l2); reflexivity.
  - rewrite <- app_comm_cons, !mapM_option_cons, IH.
    destruct (f x), (mapM f l1), (mapM f l2); reflexivity.
Qed.

Lemma run_transitions_app trs1 trs2 st :
  run_transitions (trs1 ++ trs2) st
  = run_transitions trs2 (run_transitions trs1 st).
Proof. apply fold_left_app. Qed.

Section Loops.

Variable strptime : string → string → option datetime.

Lemma inner_loop_run it cs st :
  for_each (on_change strptime it) cs st
  = match mapM (read_change strptime)
            (map (fun ch => (created it, ch)) (List.filter is_status cs)) with
    | Some trs => Ok (run_transitions trs st)
    | None => Raise ValueError
    end.
Proof.
  revert st. induction cs as [|ch cs IH]; intros st; [reflexivity|].
  cbn [for_each List.filter]. unfold on_change at 1. fold (is_status ch).
  destruct (is_status ch).
  - cbn [map]. rewrite mapM_option_cons.
    unfold read_change at 1, parse_time. cbn [fst snd].
    destruct (strptime (created it) time_format) as [t|];
      cbn [rbind]; [| reflexivity].
    rewrite IH. destruct (mapM _ _); reflexivity.
  - cbn [rbind]. apply IH.
Qed.

Lemma outer_loop_run history st :
  for_each (on_item strptime) history st
  = match transitions strptime history with
    | Some trs => Ok (run_transitions trs st)
    | None => Raise ValueError
    end.
Proof.
  unfold transitions.
  revert st. induction history as [|it h IH]; intros st; [reflexivity|].
  cbn [for_each status_changes flat_map]. fold (status_changes h).
  rewrite mapM_option_app.
  unfold on_item at 1. rewrite inner_loop_run.
  destruct (mapM _ (map _ _)) as [trs1|]; cbn [rbind]; [| reflexivity].
  rewrite IH.
  destruct (mapM _ (status_changes h)) as [trs2|]; [| reflexivity].
  rewrite run_transitions_app. reflexivity.
Qed.

End Loops.

(** Crediting at the end of a run books exactly the intervals of the
    timeline. *)
Lemma credit_run trs st now :
  credit (run_transitions trs st) now
  = book (intervals (last_status st) (last_timestamp st) trs now)
      (status_times st).
Proof.
  revert st. induction trs as [|[t to] trs IH]; intros st.
  - destruct st; reflexivity.
  - cbn [run_transitions fold_left intervals book]. 
    change (fold_left on_transition trs ?s) with (run_transitions trs s).
    rewrite IH. destruct st; reflexivity.
Qed.

Lemma credit_when_allowed st now :
  (if may_credit st then credit st now else status_times st) = credit st now.
Proof. unfold credit. destruct (may_credit st); reflexivity. Qed.

(** What a call returns, once its timestamps parse. *)
Lemma calculate_run strptime history created_date t0 trs w :
  strptime created_date time_format = Some t0 →
  transitions strptime history = Some trs →
  calculate_time_in_status strptime history created_date w
  = (Ok (book (intervals (Some "To Do") t0 trs (clock w)) ∅), w).
Proof.
  intros Ht0 Htrs.
  unfold calculate_time_in_status, io_bind, io_lift, parse_time.
  rewrite Ht0, outer_loop_run, Htrs.
  set (st0 := {| status_times := ∅; last_status := Some "To Do";
                 last_timestamp := t0 |}).
  change (book _ ∅)
    with (book (intervals (last_status st0) (last_timestamp st0) trs (clock w))
            (status_times st0)).
  rewrite <- credit_run, <- credit_when_allowed.
  destruct (may_credit _); reflexivity.
Qed.

Lemma calculate_bad_created strptime history created_date w :
  strptime created_date time_format = None →
  calculate_time_in_status strptime history created_date w
  = (Raise ValueError, w).
Proof.
  intros Hc. unfold calculate_time_in_status, io_bind, io_lift, parse_time.
  rewrite Hc. reflexivity.
Qed.

(** ** Crediting an interval *)

Lemma truthy_Some k : truthy (Some k) = true ↔ k ≠ "".
Proof.
  simpl. destruct (String.eqb_spec k ""); simpl; split; congruence.
Qed.

Lemma credit_interval_attributed m iv k :
  status iv = Some k → k ≠ "" →
  credit_interval m iv
  = <[k := (default 0%Qc (m !! k) + duration iv)%Qc]> m.
Proof.
  intros Hs Hk. unfold credit_interval, credit, may_credit. simpl.
  rewrite Hs. rewrite (proj2 (truthy_Some k) Hk). reflexivity.
Qed.

Lemma credit_interval_unattributed m iv :
  attributed iv = false → credit_interval m iv = m.
Proof.
  unfold attributed, credit_interval, credit, may_credit. simpl.
  intros ->. reflexivity.
Qed.

Lemma attributed_key iv :
  attributed iv = true → ∃ k, status iv = Some k ∧ k ≠ "".
Proof.
  unfold attributed. destruct (status iv) as [k|]; [| discriminate].
  intros H. exists k. split; [reflexivity | by apply truthy_Some].
Qed.

Lemma book_cons iv ivs m : book (iv :: ivs) m = book ivs (credit_interval m iv).
Proof. reflexivity. Qed.

(** ** The value of each key *)

Lemma time_in_cons s iv ivs :
  time_in s (iv :: ivs)
  = if held s iv then (duration iv + time_in s ivs)%Qc else time_in s ivs.
Proof. unfold time_in. simpl. destruct (held s iv); reflexivity. Qed.

Lemma book_lookup ivs m s :
  book ivs m !! s
  = if bool_decide (s ≠ "") && existsb (held s) ivs
    then Some (default 0%Qc (m !! s) + time_in s ivs)%Qc
    else m !! s.
Proof.
  revert m. induction ivs as [|iv ivs IH]; intros m.
  - rewrite andb_false_r. reflexivity.
  - rewrite book_cons, IH, time_in_cons. cbn [existsb].
    destruct (attributed iv) eqn:Hat.
    + destruct (attributed_key iv Hat) as (k & Hk & Hne).
      rewrite (credit_interval_attributed m iv k Hk Hne).
      unfold held at 2 4. rewrite Hk.
      destruct (decide (k = s)) as [->|Hks].
      * rewrite (bool_decide_eq_true_2 (Some s = Some s)) by reflexivity.
        rewrite (bool_decide_eq_true_2 (s ≠ "")) by exact Hne.
        rewrite lookup_insert_eq. cbn [andb orb default].
        destruct (existsb (held s) ivs) eqn:Hex.
        -- apply (f_equal Some). unfold id. ring.
        -- apply (f_equal Some). unfold id, time_in.
           assert (List.filter (held s) ivs = []) as ->.
           { clear -Hex. induction ivs as [|x ivs IH]; [reflexivity|].
             simpl in *. apply orb_false_iff in Hex as [-> Hex]. auto. }
           simpl. ring.
      * rewrite (bool_decide_eq_false_2 (Some k = Some s)) by congruence.
        rewrite lookup_insert_ne by exact Hks. reflexivity.
    + rewrite credit_interval_unattributed by exact Hat.
      unfold held at 2 4.
      destruct (decide (status iv = Some s)) as [Hs|Hs].
      * rewrite (bool_decide_eq_true_2 (status iv = Some s)) by exact Hs.
        assert (s = "") as ->.
        { unfold attributed in Hat. rewrite Hs in Hat.
          destruct (decide (s = "")) as [|Hne]; [assumption|].
          apply truthy_Some in Hne. congruence. }
        rewrite (bool_decide_eq_false_2 ("" ≠ ""))
          by (intros H; apply H; reflexivity).
        reflexivity.
      * rewrite (bool_decide_eq_false_2 (status iv = Some s)) by exact Hs.
        reflexivity.
Qed.

(** ** The sum of the values *)

Lemma sum_values_empty : sum_values ∅ = 0%Qc.
Proof. apply map_fold_empty. Qed.

Lemma sum_values_insert_fresh (m : gmap string Qc) k v :
  m !! k = None → sum_values (<[k := v]> m) = (v + sum_values m)%Qc.
Proof.
  intros Hk. unfold sum_values.
  apply (map_fold_insert_L (fun _ v acc => (v + acc)%Qc)); [| exact Hk].
  intros. ring.
Qed.

Lemma sum_values_credit (m : gmap string Qc) k d :
  sum_values (<[k := (default 0%Qc (m !! k) + d)%Qc]> m)
  = (sum_values m + d)%Qc.
Proof.
  destruct (m !! k) as [v|] eqn:Hk; cbn [default].
  - rewrite <- (insert_delete_id m k v Hk) at 2.
    rewrite <- (insert_delete_eq m k).
    rewrite !sum_values_insert_fresh by apply lookup_delete_eq.
    unfold id. ring.
  - rewrite sum_values_insert_fresh by exact Hk. ring.
Qed.

Lemma sum_values_credit_interval m iv :
  sum_values (credit_interval m iv)
  = (sum_values m + (if attributed iv then duration iv else 0))%Qc.
Proof.
  destruct (attributed iv) eqn:Hat.
  - destruct (attributed_key iv Hat) as (k & Hk & Hne).
    rewrite (credit_interval_attributed m iv k Hk Hne).
    apply sum_values_credit.
  - rewrite credit_interval_unattributed by exact Hat. ring.
Qed.

Lemma sum_values_book ivs m :
  sum_values (book ivs m)
  = (sum_values m + total_hours (List.filter attributed ivs))%Qc.
Proof.
  revert m. induction ivs as [|iv ivs IH]; intros m.
  - simpl. ring.
  - rewrite book_cons, IH, sum_values_credit_interval. simpl.
    destruct (attributed iv); simpl; ring.
Qed.

(** ** Evaluation on the sample inputs *)

Ltac qc_eval := apply Qc_is_canon; vm_compute; reflexivity.

Lemma sample_created : sample_strptime created_2024 time_format = Some 0.
Proof. reflexivity. Qed.

(** The single transition of the specification: ten hours in To Do and
    fourteen in In Progress. *)
Example single_transition_durations :
  ∃ m, calculate_time_in_status sample_strptime single_transition created_2024
         (offline_world (24 * hour)) = (Ok m, offline_world (24 * hour))
       ∧ m !! "To Do" = Some (Qc_of_Z 10)
       ∧ m !! "In Progress" = Some (Qc_of_Z 14)
       ∧ dom m = {["To Do"; "In Progress"]}.
Proof.
  eexists. split; [apply (calculate_run _ _ _ 0 [(10 * hour, Some "In Progress")]); reflexivity|].
  split; [| split].
  - rewrite book_lookup. cbn. apply (f_equal Some). qc_eval.
  - rewrite book_lookup. cbn. apply (f_equal Some). qc_eval.
  - apply set_eq. intros k. rewrite elem_of_dom, book_lookup.
    rewrite lookup_empty. unfold is_Some.
    destruct (bool_decide (k ≠ "") && _) eqn:E.
    + split; [intros _ | eauto].
      apply andb_true_iff in E as [_ E]. cbn in E.
      rewrite !orb_true_iff in E. unfold held in E. cbn in E.
      destruct E as [E|[E|E]]; [| | discriminate];
        apply bool_decide_eq_true in E; injection E as <-; set_solver.
    + split; [intros [x Hx]; discriminate|].
      intros Hk. exfalso.
      assert (k = "To Do" ∨ k = "In Progress") as [->| ->] by set_solver;
        vm_compute in E; discriminate.
Qed.

(** ** Empty changelog *)

(** C4. With an empty changelog the call returns the mapping whose only
    key is "To Do", bound to the time from [createdAt] to [now] in hours:
    its microseconds over 10^6 and over 3600.  The clock is read once and
    the world is left as it was. *)
Theorem empty_changelog strptime created_date t0 w :
  strptime created_date time_format = Some t0 →
  calculate_time_in_status strptime [] created_date w
  = (Ok {[ "To Do" := (Qc_of_Z (clock w - t0) / Qc_of_Z 1000000
                       / Qc_of_Z 3600)%Qc ]}, w).
Proof.
  intros Ht0.
  rewrite (calculate_run strptime [] created_date t0 [] w Ht0 eq_refl).
  cbn [intervals book fold_left].
  rewrite (credit_interval_attributed _ _ "To Do") by done.
  rewrite lookup_empty. cbn [default duration startTime endTime].
  rewrite Qcplus_0_l. reflexivity.
Qed.

(** From 2024-01-01T00:00 to a clock at 2024-01-02T00:00: 24 hours. *)
Lemma empty_changelog_witness :
  calculate_time_in_status sample_strptime [] created_2024
    (offline_world (24 * hour))
  = (Ok {[ "To Do" := Qc_of_Z 24 ]}, offline_world (24 * hour)).
Proof.
  transitivity
    (Ok ({[ "To Do" := (Qc_of_Z (clock (offline_world (24 * hour)) - 0)
                        / Qc_of_Z 1000000 / Qc_of_Z 3600)%Qc ]}
           : gmap string Qc),
     offline_world (24 * hour)).
  - apply (empty_changelog sample_strptime created_2024 0). reflexivity.
  - apply (f_equal (fun v : Qc => (Ok ({[ "To Do" := v ]} : gmap string Qc),
                                    offline_world (24 * hour)))).
    apply Qc_is_canon. vm_compute. reflexivity.
Defined.

(** ** Keys and values of the returned mapping *)

Lemma existsb_held s ivs :
  existsb (held s) ivs = true ↔ Exists (fun iv => status iv = Some s) ivs.
Proof.
  rewrite existsb_exists, Exists_exists. unfold held.
  split; intros (iv & Hin & Hs); exists iv; (split; [| try exact Hin]).
  - by apply list_elem_of_In.
  - by apply bool_decide_eq_true in Hs.
  - by apply list_elem_of_In.
  - by apply bool_decide_eq_true.
Qed.

Lemma book_value ivs s :
  s ≠ "" → Exists (fun iv => status iv = Some s) ivs →
  book ivs ∅ !! s = Some (time_in s ivs).
Proof.
  intros Hne Hex. rewrite book_lookup.
  rewrite (bool_decide_eq_true_2 (s ≠ "")) by exact Hne.
  rewrite (proj2 (existsb_held s ivs) Hex). cbn [andb].
  rewrite lookup_empty. cbn [default]. apply (f_equal Some). ring.
Qed.

Lemma book_keys ivs k :
  is_Some (book ivs ∅ !! k)
  ↔ k ≠ "" ∧ Exists (fun iv => status iv = Some k) ivs.
Proof.
  rewrite book_lookup, lookup_empty, <- existsb_held.
  destruct (decide (k = "")) as [->|Hne].
  - rewrite (bool_decide_eq_false_2 ("" ≠ "")) by (intros H; by apply H).
    cbn [andb]. split; [intros [x Hx]; discriminate | intros [H _]; by destruct H].
  - rewrite (bool_decide_eq_true_2 (k ≠ "")) by exact Hne. cbn [andb].
    destruct (existsb (held k) ivs); split.
    + intros _. by split.
    + intros _. by eexists.
    + intros [x Hx]. discriminate.
    + intros [_ H]. discriminate.
Qed.

(** The statuses of the intervals are the seed and the [toValue]s. *)
Lemma intervals_statuses current start trs now s :
  Exists (fun iv => status iv = Some s) (intervals current start trs now)
  ↔ current = Some s ∨ ∃ t, (t, Some s) ∈ trs.
Proof.
  revert current start. induction trs as [|[t to] trs IH]; intros current start.
  - simpl. rewrite Exists_cons, Exists_nil. simpl.
    split; [intros [H|[]]; by left | intros [H|[t Ht]]; [by left|]].
    by apply elem_of_nil in Ht.
  - simpl. rewrite Exists_cons, IH. simpl. split.
    + intros [H|[H|[t' Ht']]]; [by left | | ].
      * right. exists t. rewrite H. by left.
      * right. exists t'. by right.
    + intros [H|[t' Ht']]; [by left|]. right.
      apply elem_of_cons in Ht' as [Heq|Hin].
      * left. congruence.
      * right. by exists t'.
Qed.

Lemma intervals_never_held current start trs now s :
  current ≠ Some s → Forall (fun tr => tr.2 ≠ Some s) trs →
  List.filter (held s) (intervals current start trs now) = [].
Proof.
  revert current start. induction trs as [|[t to] trs IH];
    intros current start Hcur Hall.
  - simpl. unfold held. simpl. by rewrite bool_decide_eq_false_2.
  - apply Forall_cons in Hall as [Hto Hall]. simpl in *.
    unfold held at 1. simpl. rewrite bool_decide_eq_false_2 by exact Hcur.
    by apply IH.
Qed.

(** ** Elapsed time under the keys of the mapping *)










Lemma book_snoc ivs iv m :
  book (ivs ++ [iv]) m = credit_interval (book ivs m) iv.
Proof. unfold book. by rewrite fold_left_app. Qed.




(** ** Whole hours

    When the length of every interval is a whole number of hours, every
    hour count is an integer and the additions of the source are exact. *)





(** ** Conservation *)





(** ** Accumulation on revisit *)

(** C5, as amended.  For a status whose name is not empty and that holds
    during at least one interval, the returned mapping binds the name to
    the sum of the durations of all the intervals of that status. *)
Theorem accumulation_on_revisit strptime history created_date t0 trs w s :
  strptime created_date time_format = Some t0 →
  transitions strptime history = Some trs →
  s ≠ "" →
  Exists (fun iv => status iv = Some s)
    (intervals (Some "To Do") t0 trs (clock w)) →
  ∃ m, calculate_time_in_status strptime history created_date w = (Ok m, w)
       ∧ m !! s = Some (time_in s (intervals (Some "To Do") t0 trs (clock w))).
Proof.
  intros Ht0 Htrs Hne Hex. eexists. split; [by apply calculate_run|].
  by apply book_value.
Qed.

Lemma accumulation_on_revisit_witness :
  ∃ m, calculate_time_in_status sample_strptime revisit_history created_2024
         (offline_world (24 * hour)) = (Ok m, offline_world (24 * hour))
       ∧ m !! "To Do"
         = Some (time_in "To Do"
                   (intervals (Some "To Do") 0
                      [(4 * hour, Some "In Progress"); (10 * hour, Some "To Do");
                       (16 * hour, Some "Done")] (24 * hour))).
Proof.
  apply (accumulation_on_revisit sample_strptime revisit_history created_2024 0
           [(4 * hour, Some "In Progress"); (10 * hour, Some "To Do");
            (16 * hour, Some "Done")] (offline_world (24 * hour)) "To Do").
  - reflexivity.
  - reflexivity.
  - discriminate.
  - left. reflexivity.
Defined.

(** To Do -> In Progress -> To Do -> Done: the four hours before 04:00 and
    the six between 10:00 and 16:00 are both counted for To Do. *)
Example revisit_durations :
  ∃ m, calculate_time_in_status sample_strptime revisit_history created_2024
         (offline_world (24 * hour)) = (Ok m, offline_world (24 * hour))
       ∧ m !! "To Do" = Some (Qc_of_Z 4 + Qc_of_Z 6)%Qc
       ∧ m !! "In Progress" = Some (Qc_of_Z 6)
       ∧ m !! "Done" = Some (Qc_of_Z 8).
Proof.
  eexists. split.
  { apply (calculate_run _ _ _ 0
             [(4 * hour, Some "In Progress"); (10 * hour, Some "To Do");
              (16 * hour, Some "Done")]); reflexivity. }
  repeat split; rewrite book_lookup; cbn; apply (f_equal Some); qc_eval.
Qed.

(** C5, as stated, fails for the empty status name: it is entered at 04:00
    and again at 16:00, its two intervals last 6 and 8 hours, and the
    returned mapping has no value for it. *)
Lemma accumulation_counterexample :
  transitions sample_strptime empty_name_revisit
  = Some [(4 * hour, Some ""); (10 * hour, Some "In Progress");
          (16 * hour, Some "")]
  ∧ carries_toValue [(4 * hour, Some ""); (10 * hour, Some "In Progress");
                     (16 * hour, Some "")]
  ∧ ascending 0 [(4 * hour, Some ""); (10 * hour, Some "In Progress");
                 (16 * hour, Some "")] (24 * hour)
  ∧ time_in "" (intervals (Some "To Do") 0
                  [(4 * hour, Some ""); (10 * hour, Some "In Progress");
                   (16 * hour, Some "")] (24 * hour))
    = (Qc_of_Z 6 + Qc_of_Z 8)%Qc
  ∧ ∃ m, calculate_time_in_status sample_strptime empty_name_revisit
           created_2024 (offline_world (24 * hour))
         = (Ok m, offline_world (24 * hour))
       ∧ m !! "" = None.
Proof.
  split; [reflexivity|].
  split; [repeat constructor; eexists; reflexivity|].
  split; [cbn; unfold hour; lia|].
  split; [qc_eval|].
  eexists. split.
  { apply (calculate_run _ _ _ 0
             [(4 * hour, Some ""); (10 * hour, Some "In Progress");
              (16 * hour, Some "")]); reflexivity. }
  rewrite book_lookup. reflexivity.
Qed.

(** ** Timestamps that go backwards *)

Lemma time_in_app s ivs1 ivs2 :
  time_in s (ivs1 ++ ivs2) = (time_in s ivs1 + time_in s ivs2)%Qc.
Proof.
  unfold time_in. induction ivs1 as [|iv ivs1 IH]; simpl; [ring|].
  destruct (held s iv); simpl; rewrite IH; ring.
Qed.

(** C2, as amended.  The calculation compares no timestamps.  When some
    interval of the timeline is negative (a changelog entry dated before
    [createdAt] or before an earlier entry, or [now] before the last
    change), the call still returns a mapping, and if the status of that
    interval is a non-empty name the negative time is part of its value. *)
Theorem negative_interval_accumulated strptime history created_date
    t0 trs w before iv after :
  strptime created_date time_format = Some t0 →
  transitions strptime history = Some trs →
  intervals (Some "To Do") t0 trs (clock w) = before ++ iv :: after →
  (endTime iv < startTime iv)%Z →
  ∃ m, calculate_time_in_status strptime history created_date w = (Ok m, w)
       ∧ (duration iv < 0)%Qc
       ∧ ∀ s, status iv = Some s → s ≠ "" →
              m !! s = Some (duration iv + time_in s (before ++ after))%Qc.
Proof.
  intros Ht0 Htrs Hivs Hlt. eexists. split; [by apply calculate_run|].
  split; [by apply hours_between_neg|].
  intros s Hs Hne. rewrite Hivs.
  rewrite book_value;
    [| exact Hne | apply Exists_app; right; by apply Exists_cons_hd].
  apply (f_equal Some).
  rewrite !time_in_app, time_in_cons. unfold held at 1.
  rewrite (bool_decide_eq_true_2 (status iv = Some s)) by exact Hs. ring.
Qed.

Lemma negative_interval_accumulated_witness :
  ∃ m, calculate_time_in_status sample_strptime backdated_history created_2024
         (offline_world (24 * hour)) = (Ok m, offline_world (24 * hour))
       ∧ (duration {| status := Some "To Do"; startTime := 0;
                      endTime := -24 * hour |} < 0)%Qc
       ∧ ∀ s, Some "To Do" = Some s → s ≠ "" →
              m !! s
              = Some (duration {| status := Some "To Do"; startTime := 0;
                                  endTime := -24 * hour |}
                      + time_in s ([] ++ [{| status := Some "Done";
                                             startTime := -24 * hour;
                                             endTime := 24 * hour |}]))%Qc.
Proof.
  apply (negative_interval_accumulated sample_strptime backdated_history
           created_2024 0 [(-24 * hour, Some "Done")]
           (offline_world (24 * hour)) []
           {| status := Some "To Do"; startTime := 0; endTime := -24 * hour |}
           [{| status := Some "Done"; startTime := -24 * hour;
               endTime := 24 * hour |}]).
  - reflexivity.
  - reflexivity.
  - reflexivity.
  - reflexivity.
Defined.

(** C2, as stated, fails: with a changelog entry dated the day before
    [createdAt] the call raises nothing.  It returns a mapping, in which
    To Do has -24 hours and Done 48. *)
Lemma negative_interval_counterexample :
  transitions sample_strptime backdated_history
  = Some [(-24 * hour, Some "Done")]
  ∧ sample_strptime created_2024 time_format = Some 0
  ∧ (-24 * hour < 0)%Z
  ∧ ∃ m, calculate_time_in_status sample_strptime backdated_history
           created_2024 (offline_world (24 * hour))
         = (Ok m, offline_world (24 * hour))
       ∧ m !! "To Do" = Some (Qc_of_Z (-24))
       ∧ m !! "Done" = Some (Qc_of_Z 48).
Proof.
  split; [reflexivity|]. split; [reflexivity|]. split; [reflexivity|].
  eexists. split.
  { apply (calculate_run _ _ _ 0 [(-24 * hour, Some "Done")]); reflexivity. }
  split; rewrite book_lookup; cbn; apply (f_equal Some); qc_eval.
Qed.

(** ** Status changes without a toValue *)

(** C3, as amended.  A status change without [toValue] raises nothing:
    the call returns a mapping.  The undefined status is carried as the
    running status and never becomes a key: the keys are the non-empty
    names among "To Do" and the [toValue]s. *)
Theorem missing_toValue_tolerated strptime history created_date t0 trs w :
  strptime created_date time_format = Some t0 →
  transitions strptime history = Some trs →
  Exists (fun tr => tr.2 = None) trs →
  ∃ m, calculate_time_in_status strptime history created_date w = (Ok m, w)
       ∧ ∀ k, is_Some (m !! k)
              ↔ k ≠ "" ∧ (k = "To Do" ∨ ∃ t, (t, Some k) ∈ trs).
Proof.
  intros Ht0 Htrs _. eexists. split; [by apply calculate_run|].
  intros k. rewrite book_keys, intervals_statuses.
  split; intros [Hne [H|H]]; (split; [exact Hne|]); auto; left; congruence.
Qed.

Lemma missing_toValue_tolerated_witness :
  ∃ m, calculate_time_in_status sample_strptime missing_to_history created_2024
         (offline_world (24 * hour)) = (Ok m, offline_world (24 * hour))
       ∧ ∀ k, is_Some (m !! k)
              ↔ k ≠ "" ∧ (k = "To Do" ∨ ∃ t, (t, Some k) ∈ [(10 * hour, @None string)]).
Proof.
  apply (missing_toValue_tolerated sample_strptime missing_to_history
           created_2024 0 [(10 * hour, None)]).
  - reflexivity.
  - reflexivity.
  - left. reflexivity.
Defined.

(** C3, as stated, fails: the one status change of the changelog has no
    [toString], and the call returns a mapping, with the ten hours before
    the change under To Do and no other key. *)
Lemma missing_toValue_counterexample :
  status_changes missing_to_history
  = [("2024-01-01T10:00:00.000000+0000", status_change (Some "To Do") None)]
  ∧ toString (status_change (Some "To Do") None) = None
  ∧ ∃ m, calculate_time_in_status sample_strptime missing_to_history
           created_2024 (offline_world (24 * hour))
         = (Ok m, offline_world (24 * hour))
       ∧ m !! "To Do" = Some (Qc_of_Z 10)
       ∧ ∀ k, k ≠ "To Do" → m !! k = None.
Proof.
  split; [reflexivity|]. split; [reflexivity|].
  eexists. split.
  { apply (calculate_run _ _ _ 0 [(10 * hour, None)]); reflexivity. }
  split.
  - rewrite book_lookup. cbn. apply (f_equal Some). qc_eval.
  - intros k Hk. rewrite book_lookup, lookup_empty.
    destruct (bool_decide (k ≠ "") && _) eqn:E; [| reflexivity].
    apply andb_true_iff in E as [_ E]. cbn in E. unfold held in E. cbn in E.
    rewrite !orb_false_r in E. apply bool_decide_eq_true in E.
    congruence.
Qed.

(** ** Time that no status is credited with *)

Lemma intervals_app current start pre t to post now :
  intervals current start (pre ++ (t, to) :: post) now
  = intervals current start pre t ++ intervals to t post now.
Proof.
  revert current start. induction pre as [|[t' to'] pre IH];
    intros current start; [reflexivity|].
  simpl. by rewrite IH.
Qed.


Lemma ascending_intervals current start trs now :
  ascending start trs now →
  Forall (fun iv => (startTime iv ≤ endTime iv)%Z)
    (intervals current start trs now).
Proof.
  revert current start. induction trs as [|[t to] trs IH];
    intros current start Hasc; simpl in *.
  - by repeat constructor.
  - destruct Hasc as [Hle Hasc]. constructor; [exact Hle | by apply IH].
Qed.






(** After a status change without [toString] at 10:00 and no other change,
    the mapping holds the ten hours of To Do alone: fourteen of the
    twenty-four hours are credited to no status. *)
Example missing_to_durations :
  ∃ m, calculate_time_in_status sample_strptime missing_to_history created_2024
         (offline_world (24 * hour)) = (Ok m, offline_world (24 * hour))
       ∧ sum_values m = Qc_of_Z 10
       ∧ hours_between 0 (24 * hour) = Qc_of_Z 24.
Proof.
  eexists. split.
  { apply (calculate_run _ _ _ 0 [(10 * hour, None)]); reflexivity. }
  split; [| qc_eval].
  rewrite sum_values_book, sum_values_empty. qc_eval.
Qed.


(** ** What the result depends on *)

Lemma calculate_via_transitions strptime h h' created_date w :
  transitions strptime h = transitions strptime h' →
  calculate_time_in_status strptime h created_date w
  = calculate_time_in_status strptime h' created_date w.
Proof.
  intros Heq. unfold calculate_time_in_status, io_bind, io_lift.
  destruct (parse_time strptime created_date) as [t0|e]; [| reflexivity].
  by rewrite !outer_loop_run, Heq.
Qed.

Lemma filter_filter {A} (f : A → bool) (l : list A) :
  List.filter f (List.filter f l) = List.filter f l.
Proof.
  induction l as [|x l IH]; [reflexivity|]. simpl.
  destruct (f x) eqn:Hx; simpl; [rewrite Hx, IH |]; done.
Qed.

Lemma status_changes_status_only history :
  status_changes (status_only history) = status_changes history.
Proof.
  induction history as [|it h IH]; [reflexivity|].
  unfold status_only in *. cbn [map List.filter status_changes flat_map] in *.
  cbn [items]. fold (status_changes h).
  destruct (List.filter is_status (items it)) as [|ch cs] eqn:Hf.
  - simpl. exact IH.
  - cbn [flat_map items created]. rewrite <- Hf, filter_filter.
    f_equal. exact IH.
Qed.

(** ** Changes of other fields *)

(** C6. Two changelogs that differ only by field changes whose field is
    not "status" (added to or removed from entries, or making up whole
    entries) give the same result: the same mapping, or the same error. *)
Theorem non_status_changes_ignored strptime h h' created_date w :
  status_only h = status_only h' →
  calculate_time_in_status strptime h created_date w
  = calculate_time_in_status strptime h' created_date w.
Proof.
  intros Heq. apply calculate_via_transitions. unfold transitions.
  by rewrite <- (status_changes_status_only h),
             <- (status_changes_status_only h'), Heq.
Qed.

Lemma non_status_changes_ignored_witness :
  calculate_time_in_status sample_strptime single_transition_with_assignee
    created_2024 (offline_world (24 * hour))
  = calculate_time_in_status sample_strptime single_transition
      created_2024 (offline_world (24 * hour)).
Proof.
  apply (non_status_changes_ignored sample_strptime
           single_transition_with_assignee single_transition).
  reflexivity.
Defined.

(** Removing one field change that is not a status change from an entry,
    or one entry that holds no status change, leaves [status_only] as it
    was. *)
Lemma status_only_remove_change before after c cs1 ch cs2 :
  is_status ch = false →
  status_only (before ++ {| created := c; items := cs1 ++ ch :: cs2 |} :: after)
  = status_only (before ++ {| created := c; items := cs1 ++ cs2 |} :: after).
Proof.
  intros Hch. unfold status_only.
  rewrite !map_app, !List.filter_app. cbn [map created items].
  rewrite !List.filter_app. cbn [List.filter]. by rewrite Hch.
Qed.

Lemma status_only_remove_entry before after it :
  forallb (fun ch => negb (is_status ch)) (items it) = true →
  status_only (before ++ it :: after) = status_only (before ++ after).
Proof.
  intros Hit. unfold status_only.
  rewrite !map_app, !List.filter_app. cbn [map List.filter items].
  assert (List.filter is_status (items it) = []) as ->; [| reflexivity].
  induction (items it) as [|ch cs IH]; [reflexivity|].
  simpl in *. apply andb_true_iff in Hit as [Hch Hcs].
  apply negb_true_iff in Hch. rewrite Hch. by apply IH.
Qed.

(** ** fromString *)

Lemma same_but_from_inner strptime c cs cs' :
  Forall2 same_but_from cs cs' →
  mapM (read_change strptime)
    (map (fun ch => (c, ch)) (List.filter is_status cs))
  = mapM (read_change strptime)
      (map (fun ch => (c, ch)) (List.filter is_status cs')).
Proof.
  induction 1 as [|a b cs cs' [Hf Ht] _ IH]; [reflexivity|].
  cbn [List.filter].
  assert (is_status a = is_status b) as -> by (unfold is_status; by rewrite Hf).
  destruct (is_status b); [| exact IH].
  cbn [map]. rewrite !mapM_option_cons, IH.
  unfold read_change. cbn [fst snd]. by rewrite Ht.
Qed.

Lemma same_but_from_transitions strptime h h' :
  history_same_but_from h h' →
  transitions strptime h = transitions strptime h'.
Proof.
  unfold transitions.
  induction 1 as [|a b h h' [Hc Hi] _ IH]; [reflexivity|].
  cbn [status_changes flat_map]. fold (status_changes h) (status_changes h').
  rewrite !mapM_option_app, IH, Hc.
  by rewrite (same_but_from_inner strptime (created b) _ _ Hi).
Qed.

(** C8. Two changelogs that differ at most in the [fromString] of their
    field changes give the same result: attribution follows the running
    status, seeded with "To Do" and then set from each [toString]. *)
Theorem fromValue_noninterference strptime h h' created_date w :
  history_same_but_from h h' →
  calculate_time_in_status strptime h created_date w
  = calculate_time_in_status strptime h' created_date w.
Proof.
  intros Hsame. by apply calculate_via_transitions, same_but_from_transitions.
Qed.

Lemma fromValue_noninterference_witness :
  calculate_time_in_status sample_strptime single_transition
    created_2024 (offline_world (24 * hour))
  = calculate_time_in_status sample_strptime single_transition_lying
      created_2024 (offline_world (24 * hour)).
Proof.
  apply (fromValue_noninterference sample_strptime single_transition
           single_transition_lying).
  repeat constructor.
Defined.

(** ** Determinism *)

(** The result of a call is a function of its arguments and of the
    reading of the clock, and the call leaves the world as it found it. *)
Lemma calculate_reads_clock strptime history created_date :
  ∃ f : datetime → result (gmap string Qc),
    ∀ w, calculate_time_in_status strptime history created_date w
         = (f (clock w), w).
Proof.
  unfold calculate_time_in_status, io_bind, io_lift.
  destruct (parse_time strptime created_date) as [t0|e].
  - destruct (for_each _ _ _) as [st|e].
    + destruct (may_credit st).
      * exists (fun now => Ok (credit st now)). reflexivity.
      * exists (fun _ => Ok (status_times st)). reflexivity.
    + exists (fun _ => Raise e). reflexivity.
  - exists (fun _ => Raise e). reflexivity.
Qed.

(** C7. Two calls with the same arguments in worlds whose clocks show the
    same [now] return the same result, whatever else differs between the
    worlds (what was printed before, what the HTTP peer answers), and
    neither call changes its world. *)
Theorem calculation_deterministic strptime history created_date w1 w2 :
  clock w1 = clock w2 →
  (calculate_time_in_status strptime history created_date w1).1
  = (calculate_time_in_status strptime history created_date w2).1
  ∧ (calculate_time_in_status strptime history created_date w1).2 = w1
  ∧ (calculate_time_in_status strptime history created_date w2).2 = w2.
Proof.
  intros Hclock.
  destruct (calculate_reads_clock strptime history created_date) as [f Hf].
  rewrite !Hf. cbn [fst snd]. by rewrite Hclock.
Qed.

Lemma calculation_deterministic_witness :
  (calculate_time_in_status sample_strptime revisit_history created_2024
     (offline_world (24 * hour))).1
  = (calculate_time_in_status sample_strptime revisit_history created_2024
       (rejecting_world (24 * hour))).1
  ∧ (calculate_time_in_status sample_strptime revisit_history created_2024
       (offline_world (24 * hour))).2 = offline_world (24 * hour)
  ∧ (calculate_time_in_status sample_strptime revisit_history created_2024
       (rejecting_world (24 * hour))).2 = rejecting_world (24 * hour).
Proof.
  apply (calculation_deterministic sample_strptime revisit_history created_2024
           (offline_world (24 * hour)) (rejecting_world (24 * hour))).
  reflexivity.
Defined.

(** ** Transport errors *)

Lemma fetch_jira_issues_recovers w jira_url project_key auth_email api_token
    jql_query cls msg :
  request_fails w
    (issues_request jira_url project_key auth_email api_token jql_query)
    cls msg →
  fetch_jira_issues jira_url project_key auth_email api_token jql_query w
  = (Ok (JArray []), logged w ("Error fetching Jira issues: " +:+ msg)).
Proof.
  unfold request_fails, issues_request, fetch_jira_issues, try_except,
    io_bind, http_get, io_lift.
  intros [Hget | (response & Hget & Hstatus)]; rewrite Hget.
  - reflexivity.
  - rewrite Hstatus. reflexivity.
Qed.

Lemma fetch_issue_history_recovers w jira_url issue_key auth_email api_token
    cls msg :
  request_fails w
    (changelog_request jira_url issue_key auth_email api_token) cls msg →
  fetch_issue_history jira_url issue_key auth_email api_token w
  = (Ok (JArray []),
     logged w ("Error fetching issue history for " +:+ issue_key +:+ ": "
               +:+ msg)).
Proof.
  unfold request_fails, changelog_request, fetch_issue_history, try_except,
    io_bind, http_get, io_lift.
  intros [Hget | (response & Hget & Hstatus)]; rewrite Hget.
  - reflexivity.
  - rewrite Hstatus. reflexivity.
Qed.

(** A status code from 400 to 599 makes the request fail. *)
Lemma error_status_fails w req status_code error_text body :
  400 ≤ status_code < 600 →
  requests_get w req = Ok (answered status_code error_text body) →
  request_fails w req HTTPError error_text.
Proof.
  intros Hcode Hget. right. eexists. split; [exact Hget|].
  unfold answered. cbn [raise_for_status].
  destruct (400 <=? status_code) eqn:H1; [| lia].
  destruct (status_code <? 600) eqn:H2; [reflexivity | lia].
Qed.

(** C9, as amended.  When its HTTP request fails with a
    [RequestException], raised by [requests.get] (a network failure) or by
    [raise_for_status] (a status code from 400 to 599, see
    [error_status_fails]), each of the two fetch functions prints one line
    that reports the error and returns the empty list; it raises nothing. *)
Theorem transport_error_recovered w1 w2 jira_url project_key issue_key
    auth_email api_token jql_query cls1 msg1 cls2 msg2 :
  request_fails w1
    (issues_request jira_url project_key auth_email api_token jql_query)
    cls1 msg1 →
  request_fails w2
    (changelog_request jira_url issue_key auth_email api_token) cls2 msg2 →
  fetch_jira_issues jira_url project_key auth_email api_token jql_query w1
  = (Ok (JArray []), logged w1 ("Error fetching Jira issues: " +:+ msg1))
  ∧ fetch_issue_history jira_url issue_key auth_email api_token w2
    = (Ok (JArray []),
       logged w2 ("Error fetching issue history for " +:+ issue_key +:+ ": "
                  +:+ msg2)).
Proof.
  intros H1 H2. split.
  - exact (fetch_jira_issues_recovers _ _ _ _ _ _ cls1 _ H1).
  - exact (fetch_issue_history_recovers _ _ _ _ _ cls2 _ H2).
Qed.

Lemma transport_error_recovered_witness :
  fetch_jira_issues "https://your-domain.atlassian.net" "TEST"
    "your-email@example.com" "your-api-token" None (offline_world 0)
  = (Ok (JArray []),
     logged (offline_world 0)
       ("Error fetching Jira issues: " +:+ "Connection refused"))
  ∧ fetch_issue_history "https://your-domain.atlassian.net" "TEST-1"
      "your-email@example.com" "your-api-token" (rejecting_world 0)
    = (Ok (JArray []),
       logged (rejecting_world 0)
         ("Error fetching issue history for " +:+ "TEST-1" +:+ ": "
          +:+ "401 Client Error: Unauthorized")).
Proof.
  apply (transport_error_recovered (offline_world 0) (rejecting_world 0)
           "https://your-domain.atlassian.net" "TEST" "TEST-1"
           "your-email@example.com" "your-api-token" None
           ConnectionError "Connection refused"
           HTTPError "401 Client Error: Unauthorized").
  - left. reflexivity.
  - right. eexists. split; reflexivity.
Defined.

(** C9, as stated, fails for an answer whose status is neither 2xx nor an
    error for [raise_for_status]: with status 300 [fetch_jira_issues]
    prints nothing and returns the issues of the body, not the empty list,
    and [fetch_issue_history], whose key the body lacks, raises
    [KeyError]. *)
Lemma transport_error_counterexample :
  ¬ (200 ≤ 300 < 300)
  ∧ requests_get (multiple_choices_world 0)
      (issues_request JIRA_URL PROJECT_KEY AUTH_EMAIL API_TOKEN None)
    = Ok (answered 300 "300 Multiple Choices"
            (Ok (JObject [("issues", JArray [JString "TEST-1"])])))
  ∧ fetch_jira_issues JIRA_URL PROJECT_KEY AUTH_EMAIL API_TOKEN None
      (multiple_choices_world 0)
    = (Ok (JArray [JString "TEST-1"]), multiple_choices_world 0)
  ∧ fetch_issue_history JIRA_URL "TEST-1" AUTH_EMAIL API_TOKEN
      (multiple_choices_world 0)
    = (Raise (KeyError "values"), multiple_choices_world 0).
Proof. split; [lia|]. repeat split. Qed.

(** What is printed after an unreachable peer. *)
Example offline_fetch_output :
  stdout (fetch_jira_issues "https://your-domain.atlassian.net" "TEST"
            "your-email@example.com" "your-api-token" None
            (offline_world 0)).2
  = ["Error fetching Jira issues: Connection refused"].
Proof. reflexivity. Qed.

(** * Further properties of the calculation *)

(** ** When a call returns *)

Lemma calculate_bad_entry strptime history created_date t0 w :
  strptime created_date time_format = Some t0 →
  transitions strptime history = None →
  calculate_time_in_status strptime history created_date w
  = (Raise ValueError, w).
Proof.
  intros Ht0 Htrs.
  unfold calculate_time_in_status, io_bind, io_lift, parse_time.
  by rewrite Ht0, outer_loop_run, Htrs.
Qed.

Lemma calculate_ok_inv strptime history created_date w m w' :
  calculate_time_in_status strptime history created_date w = (Ok m, w') →
  ∃ t0 trs, strptime created_date time_format = Some t0
            ∧ transitions strptime history = Some trs
            ∧ m = book (intervals (Some "To Do") t0 trs (clock w)) ∅
            ∧ w' = w.
Proof.
  intros Hcall.
  destruct (strptime created_date time_format) as [t0|] eqn:Ht0.
  - destruct (transitions strptime history) as [trs|] eqn:Htrs.
    + rewrite (calculate_run _ _ _ _ _ w Ht0 Htrs) in Hcall.
      injection Hcall as <- <-. by exists t0, trs.
    + rewrite (calculate_bad_entry _ _ _ _ w Ht0 Htrs) in Hcall. discriminate.
  - rewrite (calculate_bad_created _ _ _ w Ht0) in Hcall. discriminate.
Qed.

Lemma inner_transitions_is_Some strptime c cs :
  is_Some (mapM (read_change strptime)
             (map (fun ch => (c, ch)) (List.filter is_status cs)))
  ↔ (existsb is_status cs = true → is_Some (strptime c time_format)).
Proof.
  induction cs as [|ch cs IH]; cbn [List.filter existsb].
  - split; [discriminate | intros _; by eexists].
  - destruct (is_status ch); cbn [orb]; [| exact IH].
    cbn [map]. rewrite mapM_option_cons. unfold read_change at 1. cbn [fst].
    destruct (strptime c time_format) as [t|] eqn:Hc.
    + assert (is_Some (mapM (read_change strptime)
                         (map (fun ch => (c, ch)) (List.filter is_status cs))))
        as [k Hk] by (apply IH; intros _; by eexists).
      rewrite Hk. split; intros _; [intros _|]; by eexists.
    + split; [intros [x Hx]; discriminate|].
      intros H. destruct (H eq_refl) as [x Hx]. discriminate.
Qed.

Lemma transitions_is_Some strptime history :
  is_Some (transitions strptime history)
  ↔ Forall (fun it => has_status_change it = true →
                      is_Some (strptime (created it) time_format)) history.
Proof.
  unfold transitions.
  induction history as [|it h IH]; [split; [constructor | by eexists]|].
  cbn [status_changes flat_map]. fold (status_changes h).
  rewrite mapM_option_app, Forall_cons, <- IH.
  unfold has_status_change. rewrite <- inner_transitions_is_Some.
  destruct (mapM _ (map _ _)), (mapM _ (status_changes h)); split;
    try (intros [x Hx]; discriminate);
    try (intros [[x Hx] [y Hy]]; discriminate);
    try (intros _; split; by eexists); intros _; by eexists.
Qed.

(** X1. For a changelog of the documented shape (every entry has its
    [created] and [items], every change its [field]), a call returns a
    mapping exactly when [created_date] parses and so does the [created] of
    every entry that holds a status change.  The [created] of an entry
    without a status change is never parsed. *)
Theorem calculate_returns_iff strptime history created_date w :
  (∃ m, calculate_time_in_status strptime history created_date w = (Ok m, w))
  ↔ is_Some (strptime created_date time_format)
    ∧ Forall (fun it => has_status_change it = true →
                        is_Some (strptime (created it) time_format)) history.
Proof.
  rewrite <- transitions_is_Some.
  destruct (strptime created_date time_format) as [t0|] eqn:Ht0.
  - destruct (transitions strptime history) as [trs|] eqn:Htrs.
    + pose proof (calculate_run _ _ _ _ _ w Ht0 Htrs) as Hrun.
      split; [intros _; split; by eexists | intros _; by eexists].
    + rewrite (calculate_bad_entry _ _ _ _ w Ht0 Htrs).
      split; [intros [m Hm]; discriminate | intros [_ [x Hx]]; discriminate].
  - rewrite (calculate_bad_created _ history _ w Ht0).
    split; [intros [m Hm]; discriminate | intros [[x Hx] _]; discriminate].
Qed.

(** ** Keys that are always there, and how many there can be *)

Lemma size_credit_interval (m : gmap string Qc) iv :
  (size (credit_interval m iv) ≤ S (size m))%nat.
Proof.
  destruct (attributed iv) eqn:Hat.
  - destruct (attributed_key iv Hat) as (k & Hk & Hne).
    rewrite (credit_interval_attributed m iv k Hk Hne), map_size_insert.
    destruct (m !! k); simpl; lia.
  - rewrite credit_interval_unattributed by exact Hat. lia.
Qed.

Lemma size_book ivs (m : gmap string Qc) :
  (size (book ivs m) ≤ size m + length ivs)%nat.
Proof.
  revert m. induction ivs as [|iv ivs IH]; intros m; [simpl; lia|].
  rewrite book_cons. specialize (IH (credit_interval m iv)).
  pose proof (size_credit_interval m iv). simpl. lia.
Qed.

Lemma length_intervals current start trs now :
  length (intervals current start trs now) = S (length trs).
Proof.
  revert current start. induction trs as [|[t to] trs IH];
    intros current start; [reflexivity|].
  simpl. by rewrite IH.
Qed.

(** X2. The mapping a call returns always has the key "To Do", whatever
    the changelog says, and has at most one key more than the changelog has
    status changes. *)
Theorem to_do_always_present strptime history created_date w m w' :
  calculate_time_in_status strptime history created_date w = (Ok m, w') →
  is_Some (m !! "To Do")
  ∧ (size m ≤ 1 + length (status_changes history))%nat.
Proof.
  intros Hcall.
  apply calculate_ok_inv in Hcall as (t0 & trs & Ht0 & Htrs & -> & ->).
  split.
  - apply book_keys. split; [discriminate|].
    apply intervals_statuses. by left.
  - pose proof (size_book (intervals (Some "To Do") t0 trs (clock w)) ∅) as Hs.
    rewrite map_size_empty, length_intervals in Hs.
    unfold transitions in Htrs. apply length_mapM in Htrs. lia.
Qed.

Lemma to_do_always_present_witness :
  is_Some (book (intervals (Some "To Do") 0
                   [(4 * hour, Some "In Progress"); (10 * hour, Some "To Do");
                    (16 * hour, Some "Done")] (24 * hour)) ∅ !! "To Do")
  ∧ (size (book (intervals (Some "To Do") 0
                   [(4 * hour, Some "In Progress"); (10 * hour, Some "To Do");
                    (16 * hour, Some "Done")] (24 * hour))%Z ∅)
     ≤ 1 + length (status_changes revisit_history))%nat.
Proof.
  apply (to_do_always_present sample_strptime revisit_history created_2024
           (offline_world (24 * hour)) _ (offline_world (24 * hour))).
  apply (calculate_run sample_strptime revisit_history created_2024 0
           [(4 * hour, Some "In Progress"); (10 * hour, Some "To Do");
            (16 * hour, Some "Done")]); reflexivity.
Defined.

(** ** No negative value on an ascending changelog *)

Lemma total_hours_filter_nonneg (f : StatusInterval → bool) ivs :
  Forall (fun iv => (startTime iv ≤ endTime iv)%Z) ivs →
  (0 ≤ total_hours (List.filter f ivs))%Qc.
Proof.
  induction 1 as [|iv ivs Hiv _ IH]; simpl; [apply Qcle_refl|].
  pose proof (hours_between_nonneg _ _ Hiv) as Hd. fold (duration iv) in Hd.
  destruct (f iv); simpl; [by apply Qcplus_nonneg_nonneg | exact IH].
Qed.

(** X3. On an ascending changelog, with [now] not before the last change,
    no value of the returned mapping is negative. *)
Theorem durations_nonnegative strptime history created_date t0 trs w :
  strptime created_date time_format = Some t0 →
  transitions strptime history = Some trs →
  ascending t0 trs (clock w) →
  ∃ m, calculate_time_in_status strptime history created_date w = (Ok m, w)
       ∧ ∀ k v, m !! k = Some v → (0 ≤ v)%Qc.
Proof.
  intros Ht0 Htrs Hasc. eexists. split; [by apply calculate_run|].
  intros k v Hk. rewrite book_lookup, lookup_empty in Hk.
  destruct (bool_decide (k ≠ "") && _); [| discriminate].
  injection Hk as <-. cbn [default]. rewrite Qcplus_0_l.
  apply total_hours_filter_nonneg.
  by apply (ascending_intervals (Some "To Do")).
Qed.

Lemma durations_nonnegative_witness :
  ∃ m, calculate_time_in_status sample_strptime revisit_history created_2024
         (offline_world (24 * hour)) = (Ok m, offline_world (24 * hour))
       ∧ ∀ k v, m !! k = Some v → (0 ≤ v)%Qc.
Proof.
  apply (durations_nonnegative sample_strptime revisit_history created_2024 0
           [(4 * hour, Some "In Progress"); (10 * hour, Some "To Do");
            (16 * hour, Some "Done")]).
  - reflexivity.
  - reflexivity.
  - cbn. unfold hour. lia.
Defined.

(** ** Only differences of instants count *)

Lemma hours_between_shift a b d :
  hours_between (a + d) (b + d) = hours_between a b.
Proof.
  unfold hours_between. by replace (b + d - (a + d)) with (b - a) by lia.
Qed.

Lemma read_changes_shift strptime d scs :
  mapM (read_change (shift_strptime d strptime)) scs
  = match mapM (read_change strptime) scs with
    | Some trs => Some (map (fun tr => (tr.1 + d, tr.2)) trs)
    | None => None
    end.
Proof.
  induction scs as [|[c ch] scs IH]; [reflexivity|].
  rewrite !mapM_option_cons, IH.
  unfold read_change at 1 3, shift_strptime. cbn [fst snd].
  destruct (strptime c time_format); [| reflexivity].
  destruct (mapM (read_change strptime) scs); reflexivity.
Qed.

Lemma book_shift d current start trs now m :
  book (intervals current (start + d)
          (map (fun tr => (tr.1 + d, tr.2)) trs) (now + d)) m
  = book (intervals current start trs now) m.
Proof.
  revert current start m. induction trs as [|[t to] trs IH];
    intros current start m.
  - cbn [map intervals book fold_left].
    unfold credit_interval, credit. cbn [last_status last_timestamp status
      startTime endTime status_times may_credit].
    by rewrite hours_between_shift.
  - cbn [map intervals fst snd]. rewrite !book_cons, IH.
    f_equal. unfold credit_interval, credit.
    cbn [last_status last_timestamp status startTime endTime status_times
         may_credit].
    by rewrite hours_between_shift.
Qed.

(** X4. Moving every instant by the same amount (the creation date, the
    timestamps of the changelog and [now]) leaves the result as it is: the
    calculation depends on differences of instants only. *)
Theorem calculate_shift_invariant strptime d history created_date w w' :
  clock w' = clock w + d →
  (calculate_time_in_status (shift_strptime d strptime) history
     created_date w').1
  = (calculate_time_in_status strptime history created_date w).1.
Proof.
  intros Hclock.
  destruct (strptime created_date time_format) as [t0|] eqn:Ht0.
  - assert (shift_strptime d strptime created_date time_format
            = Some (t0 + d)) as Ht0' by (unfold shift_strptime; by rewrite Ht0).
    pose proof (read_changes_shift strptime d (status_changes history)) as Hsh.
    fold (transitions (shift_strptime d strptime) history) in Hsh.
    fold (transitions strptime history) in Hsh.
    destruct (transitions strptime history) as [trs|] eqn:Htrs.
    + rewrite (calculate_run _ _ _ _ _ w' Ht0' Hsh).
      rewrite (calculate_run _ _ _ _ _ w Ht0 Htrs).
      cbn [fst]. by rewrite Hclock, book_shift.
    + rewrite (calculate_bad_entry _ _ _ _ w' Ht0' Hsh).
      by rewrite (calculate_bad_entry _ _ _ _ w Ht0 Htrs).
  - rewrite !calculate_bad_created; [done | done |].
    unfold shift_strptime. by rewrite Ht0.
Qed.

Lemma calculate_shift_invariant_witness :
  (calculate_time_in_status (shift_strptime (2 * hour) sample_strptime)
     revisit_history created_2024 (offline_world (26 * hour))).1
  = (calculate_time_in_status sample_strptime revisit_history created_2024
       (offline_world (24 * hour))).1.
Proof.
  apply (calculate_shift_invariant sample_strptime (2 * hour) revisit_history
           created_2024 (offline_world (24 * hour))
           (offline_world (26 * hour))).
  reflexivity.
Defined.

(** ** Evaluating later *)





(** ** One more status change *)

Lemma status_changes_app h1 h2 :
  status_changes (h1 ++ h2) = status_changes h1 ++ status_changes h2.
Proof. unfold status_changes. apply flat_map_app. Qed.

(** X6. Appending to the changelog an entry with one status change, dated
    [t], gives the mapping that the shorter changelog gives at the instant
    [t], with the time from [t] to [now] then credited to the new status. *)
Theorem one_more_transition strptime history created_date e c ch t w m :
  status_changes [e] = [(c, ch)] →
  strptime c time_format = Some t →
  calculate_time_in_status strptime history created_date (at_clock w t)
  = (Ok m, at_clock w t) →
  calculate_time_in_status strptime (history ++ [e]) created_date w
  = (Ok (credit_interval m {| status := toString ch; startTime := t;
                              endTime := clock w |}), w).
Proof.
  intros He Hc Hcall.
  apply calculate_ok_inv in Hcall as (t0 & trs & Ht0 & Htrs & -> & _).
  cbn [at_clock clock].
  assert (transitions strptime (history ++ [e])
          = Some (trs ++ [(t, toString ch)])) as Htrs'.
  { unfold transitions in *. rewrite status_changes_app, He, mapM_option_app.
    rewrite Htrs, mapM_option_cons. unfold read_change. cbn [fst snd].
    by rewrite Hc. }
  rewrite (calculate_run _ _ _ _ _ w Ht0 Htrs').
  rewrite intervals_app. cbn [intervals].
  by rewrite book_snoc.
Qed.

Lemma one_more_transition_witness :
  calculate_time_in_status sample_strptime (revisit_prefix ++ [done_entry])
    created_2024 (offline_world (24 * hour))
  = (Ok (credit_interval
           (book (intervals (Some "To Do") 0
                    [(4 * hour, Some "In Progress"); (10 * hour, Some "To Do")]
                    (16 * hour)) ∅)
           {| status := toString (status_change (Some "To Do") (Some "Done"));
              startTime := 16 * hour;
              endTime := clock (offline_world (24 * hour)) |}),
     offline_world (24 * hour)).
Proof.
  apply (one_more_transition sample_strptime revisit_prefix created_2024
           done_entry "2024-01-01T16:00:00.000000+0000"
           (status_change (Some "To Do") (Some "Done")) (16 * hour)
           (offline_world (24 * hour))).
  - reflexivity.
  - reflexivity.
  - apply (calculate_run sample_strptime revisit_prefix created_2024 0
             [(4 * hour, Some "In Progress"); (10 * hour, Some "To Do")]);
      reflexivity.
Defined.

(** ** A change into the status the issue already has *)

Lemma intervals_restart current s1 s2 trs now :
  ∃ tail,
    intervals current s1 trs now
    = {| status := current; startTime := s1;
         endTime := next_instant trs now |} :: tail
    ∧ intervals current s2 trs now
      = {| status := current; startTime := s2;
           endTime := next_instant trs now |} :: tail.
Proof. destruct trs as [|[t to] trs]; eexists; split; reflexivity. Qed.

Lemma existsb_filter {A} (f : A → bool) (l : list A) :
  existsb f l = match List.filter f l with [] => false | _ => true end.
Proof.
  induction l as [|x l IH]; [reflexivity|]. cbn.
  destruct (f x); [reflexivity | exact IH].
Qed.

Lemma held_other k iv : status iv ≠ Some k → held k iv = false.
Proof. intros Hk. unfold held. by apply bool_decide_eq_false_2. Qed.

(** The value of a key depends on the intervals of that key only. *)
Lemma book_lookup_held ivs ivs' k :
  List.filter (held k) ivs = List.filter (held k) ivs' →
  book ivs ∅ !! k = book ivs' ∅ !! k.
Proof.
  intros Heq. rewrite !book_lookup, !existsb_filter. unfold time_in.
  by rewrite Heq.
Qed.

(** X7. A status change whose [toString] is the status that the previous
    change already set brings no key of its own and leaves the value of
    every other status as it is: dropping it from the changelog gives a
    mapping with the same keys and, for every status but that one, the
    same values. *)
Theorem repeated_status_merges strptime h h' created_date t0 w
    pre t1 to t2 post :
  strptime created_date time_format = Some t0 →
  transitions strptime h = Some (pre ++ (t1, to) :: (t2, to) :: post) →
  transitions strptime h' = Some (pre ++ (t1, to) :: post) →
  ∃ m m',
    calculate_time_in_status strptime h created_date w = (Ok m, w)
    ∧ calculate_time_in_status strptime h' created_date w = (Ok m', w)
    ∧ (∀ k, is_Some (m !! k) ↔ is_Some (m' !! k))
    ∧ (∀ k, to ≠ Some k → m !! k = m' !! k).
Proof.
  intros Ht0 Hh Hh'. do 2 eexists.
  split; [by apply calculate_run|]. split; [by apply calculate_run|].
  split.
  - intros k. rewrite !book_keys, !intervals_statuses.
    split; intros [Hne [Hk|[t Ht]]]; (split; [exact Hne|]); try by left.
    + right. rewrite !elem_of_app, !elem_of_cons in Ht.
      destruct Ht as [Ht|[Ht|[Ht|Ht]]].
      * exists t. rewrite elem_of_app. by left.
      * exists t. rewrite elem_of_app, elem_of_cons. right. by left.
      * injection Ht as -> <-. exists t1.
        rewrite elem_of_app, elem_of_cons. right. by left.
      * exists t. rewrite elem_of_app, elem_of_cons. right. by right.
    + right. exists t. rewrite !elem_of_app, !elem_of_cons in Ht.
      rewrite !elem_of_app, !elem_of_cons.
      destruct Ht as [Ht|[Ht|Ht]]; auto.
  - intros k Hk. apply book_lookup_held.
    rewrite !intervals_app. cbn [intervals].
    destruct (intervals_restart to t2 t1 post (clock w))
      as (tail & -> & ->).
    rewrite !List.filter_app. cbn [List.filter].
    by rewrite !(held_other k) by exact Hk.
Qed.

Lemma repeated_status_merges_witness :
  ∃ m m',
    calculate_time_in_status sample_strptime single_transition_repeated
      created_2024 (offline_world (24 * hour))
    = (Ok m, offline_world (24 * hour))
    ∧ calculate_time_in_status sample_strptime single_transition
        created_2024 (offline_world (24 * hour))
      = (Ok m', offline_world (24 * hour))
    ∧ (∀ k, is_Some (m !! k) ↔ is_Some (m' !! k))
    ∧ (∀ k, Some "In Progress" ≠ Some k → m !! k = m' !! k).
Proof.
  apply (repeated_status_merges sample_strptime single_transition_repeated
           single_transition created_2024 0 (offline_world (24 * hour))
           [] (10 * hour) (Some "In Progress") (16 * hour) []).
  - reflexivity.
  - reflexivity.
  - reflexivity.
Defined.

(** * Further properties of the fetch functions and of the entry point *)

Lemma getitem_raises value key e :
  getitem value key = Raise e → is_request_exception e = false.
Proof.
  destruct value; simpl; try (intros [= <-]; reflexivity).
  destruct (assoc_get key members); [discriminate|].
  intros [= <-]. reflexivity.
Qed.

Lemma fetch_jira_issues_answered w jira_url project_key auth_email api_token
    jql_query response body :
  requests_get w
    (issues_request jira_url project_key auth_email api_token jql_query)
  = Ok response →
  raise_for_status response = Ok tt →
  json response = Ok body →
  fetch_jira_issues jira_url project_key auth_email api_token jql_query w
  = (getitem body "issues", w).
Proof.
  unfold issues_request, fetch_jira_issues, try_except, io_bind, http_get,
    io_lift, io_ret.
  intros -> -> ->.
  destruct (getitem body "issues") as [v|e] eqn:Hget; [reflexivity|].
  by rewrite (getitem_raises _ _ _ Hget).
Qed.

Lemma fetch_issue_history_answered w jira_url issue_key auth_email api_token
    response body :
  requests_get w (changelog_request jira_url issue_key auth_email api_token)
  = Ok response →
  raise_for_status response = Ok tt →
  json response = Ok body →
  fetch_issue_history jira_url issue_key auth_email api_token w
  = (getitem body "values", w).
Proof.
  unfold changelog_request, fetch_issue_history, try_except, io_bind,
    http_get, io_lift, io_ret.
  intros -> -> ->.
  destruct (getitem body "values") as [v|e] eqn:Hget; [reflexivity|].
  by rewrite (getitem_raises _ _ _ Hget).
Qed.

(** X8. Once the response has come with a good status and a JSON body,
    each fetch function gives what the body holds under its key ("issues",
    "values"), whatever value that is, and prints nothing; when the body
    has no such key or is no object, the [KeyError] or [TypeError] is not
    recovered: it leaves the function. *)
Theorem answered_request_passed_on w1 w2 jira_url project_key issue_key
    auth_email api_token jql_query response1 body1 response2 body2 :
  requests_get w1
    (issues_request jira_url project_key auth_email api_token jql_query)
  = Ok response1 →
  raise_for_status response1 = Ok tt →
  json response1 = Ok body1 →
  requests_get w2 (changelog_request jira_url issue_key auth_email api_token)
  = Ok response2 →
  raise_for_status response2 = Ok tt →
  json response2 = Ok body2 →
  fetch_jira_issues jira_url project_key auth_email api_token jql_query w1
  = (getitem body1 "issues", w1)
  ∧ fetch_issue_history jira_url issue_key auth_email api_token w2
    = (getitem body2 "values", w2)
  ∧ (∀ members, body1 = JObject members → assoc_get "issues" members = None →
       fetch_jira_issues jira_url project_key auth_email api_token jql_query w1
       = (Raise (KeyError "issues"), w1))
  ∧ (∀ members, body2 = JObject members → assoc_get "values" members = None →
       fetch_issue_history jira_url issue_key auth_email api_token w2
       = (Raise (KeyError "values"), w2)).
Proof.
  intros G1 S1 J1 G2 S2 J2.
  pose proof (fetch_jira_issues_answered _ _ _ _ _ _ _ _ G1 S1 J1) as F1.
  pose proof (fetch_issue_history_answered _ _ _ _ _ _ _ G2 S2 J2) as F2.
  repeat split; [exact F1 | exact F2 | |].
  - intros members -> Hnone. rewrite F1. simpl. by rewrite Hnone.
  - intros members -> Hnone. rewrite F2. simpl. by rewrite Hnone.
Qed.

Lemma answered_request_passed_on_witness :
  fetch_jira_issues JIRA_URL PROJECT_KEY AUTH_EMAIL API_TOKEN None
    (serving_world 0 (JObject [("issues", JArray [JString "TEST-1"])]))
  = (getitem (JObject [("issues", JArray [JString "TEST-1"])]) "issues",
     serving_world 0 (JObject [("issues", JArray [JString "TEST-1"])]))
  ∧ fetch_issue_history JIRA_URL "TEST-1" AUTH_EMAIL API_TOKEN
      (serving_world 0 (JObject [("errorMessages", JArray [])]))
    = (getitem (JObject [("errorMessages", JArray [])]) "values",
       serving_world 0 (JObject [("errorMessages", JArray [])]))
  ∧ (∀ members,
       JObject [("issues", JArray [JString "TEST-1"])] = JObject members →
       assoc_get "issues" members = None →
       fetch_jira_issues JIRA_URL PROJECT_KEY AUTH_EMAIL API_TOKEN None
         (serving_world 0 (JObject [("issues", JArray [JString "TEST-1"])]))
       = (Raise (KeyError "issues"),
          serving_world 0 (JObject [("issues", JArray [JString "TEST-1"])])))
  ∧ (∀ members,
       JObject [("errorMessages", JArray [])] = JObject members →
       assoc_get "values" members = None →
       fetch_issue_history JIRA_URL "TEST-1" AUTH_EMAIL API_TOKEN
         (serving_world 0 (JObject [("errorMessages", JArray [])]))
       = (Raise (KeyError "values"),
          serving_world 0 (JObject [("errorMessages", JArray [])]))).
Proof.
  apply (answered_request_passed_on
           (serving_world 0 (JObject [("issues", JArray [JString "TEST-1"])]))
           (serving_world 0 (JObject [("errorMessages", JArray [])]))
           JIRA_URL PROJECT_KEY "TEST-1" AUTH_EMAIL API_TOKEN None
           {| raise_for_status := Ok tt;
              json := Ok (JObject [("issues", JArray [JString "TEST-1"])]) |}
           (JObject [("issues", JArray [JString "TEST-1"])])
           {| raise_for_status := Ok tt;
              json := Ok (JObject [("errorMessages", JArray [])]) |}
           (JObject [("errorMessages", JArray [])])); reflexivity.
Defined.

(** X9. A fetch function prints at most one line: either nothing, or one
    line that starts with the function's error text, and then it returns
    the empty list. *)
Theorem fetch_prints_at_most_one_line w jira_url project_key issue_key
    auth_email api_token jql_query :
  (stdout (fetch_jira_issues jira_url project_key auth_email api_token
             jql_query w).2 = stdout w
   ∨ ∃ msg,
       stdout (fetch_jira_issues jira_url project_key auth_email api_token
                 jql_query w).2
       = stdout w ++ ["Error fetching Jira issues: " +:+ msg]
       ∧ (fetch_jira_issues jira_url project_key auth_email api_token
            jql_query w).1 = Ok (JArray []))
  ∧ (stdout (fetch_issue_history jira_url issue_key auth_email api_token w).2
     = stdout w
     ∨ ∃ msg,
         stdout (fetch_issue_history jira_url issue_key auth_email
                   api_token w).2
         = stdout w ++ ["Error fetching issue history for " +:+ issue_key
                        +:+ ": " +:+ msg]
         ∧ (fetch_issue_history jira_url issue_key auth_email api_token w).1
           = Ok (JArray [])).
Proof.
  split.
  - unfold fetch_jira_issues, try_except, io_bind, http_get, io_lift, io_ret.
    destruct (requests_get w _) as [response|e].
    + destruct (raise_for_status response) as [[]|e].
      * destruct (json response) as [body|e].
        -- destruct (getitem body "issues") as [v|e]; [by left|].
           destruct e; simpl; eauto.
        -- destruct e; simpl; eauto.
      * destruct e; simpl; eauto.
    + destruct e; simpl; eauto.
  - unfold fetch_issue_history, try_except, io_bind, http_get, io_lift, io_ret.
    destruct (requests_get w _) as [response|e].
    + destruct (raise_for_status response) as [[]|e].
      * destruct (json response) as [body|e].
        -- destruct (getitem body "values") as [v|e]; [by left|].
           destruct e; simpl; eauto.
        -- destruct e; simpl; eauto.
      * destruct e; simpl; eauto.
    + destruct e; simpl; eauto.
Qed.

(** ** The entry point *)

(** X10. When the request for the issues fails, the entry point prints
    the error line of [fetch_jira_issues] and then "No issues found or an
    error occurred.", and ends normally; the loop over the issues is not
    entered. *)
Theorem main_reports_failure each_issue w cls msg :
  request_fails w
    (issues_request JIRA_URL PROJECT_KEY AUTH_EMAIL API_TOKEN None) cls msg →
  main each_issue w
  = (Ok tt,
     logged (logged w ("Error fetching Jira issues: " +:+ msg))
       "No issues found or an error occurred.").
Proof.
  intros Hfail. unfold main, io_bind.
  by rewrite (fetch_jira_issues_recovers _ _ _ _ _ _ cls msg Hfail).
Qed.

Lemma main_reports_failure_witness :
  main (fun _ => io_lift (Raise TypeError)) (offline_world 0)
  = (Ok tt,
     logged (logged (offline_world 0)
               ("Error fetching Jira issues: " +:+ "Connection refused"))
       "No issues found or an error occurred.").
Proof.
  apply (main_reports_failure (fun _ => io_lift (Raise TypeError))
           (offline_world 0) ConnectionError "Connection refused").
  left. reflexivity.
Defined.

(** X11. When the request is answered and what the body holds under
    "issues" is empty (an empty list, or any other value that counts as
    false), the entry point prints "No issues found or an error occurred."
    alone; and when it is not, the entry point prints "Fetched issues:" and
    goes on with the loop over the issues. *)
Theorem main_on_answer each_issue w response body issues :
  requests_get w
    (issues_request JIRA_URL PROJECT_KEY AUTH_EMAIL API_TOKEN None)
  = Ok response →
  raise_for_status response = Ok tt →
  json response = Ok body →
  getitem body "issues" = Ok issues →
  main each_issue w
  = if json_bool issues
    then each_issue issues (logged w "Fetched issues:")
    else (Ok tt, logged w "No issues found or an error occurred.").
Proof.
  intros G S J I. unfold main, io_bind.
  rewrite (fetch_jira_issues_answered _ _ _ _ _ _ _ _ G S J), I.
  by destruct (json_bool issues).
Qed.

Lemma main_on_answer_witness :
  main (fun _ => io_lift (Raise TypeError))
    (serving_world 0 (JObject [("issues", JArray [])]))
  = if json_bool (JArray [])
    then io_lift (Raise TypeError)
           (logged (serving_world 0 (JObject [("issues", JArray [])]))
              "Fetched issues:")
    else (Ok tt,
          logged (serving_world 0 (JObject [("issues", JArray [])]))
            "No issues found or an error occurred.").
Proof.
  apply (main_on_answer (fun _ => io_lift (Raise TypeError))
           (serving_world 0 (JObject [("issues", JArray [])]))
           {| raise_for_status := Ok tt;
              json := Ok (JObject [("issues", JArray [])]) |}
           (JObject [("issues", JArray [])]) (JArray [])); reflexivity.
Defined.
